(** * libmcp syscall shims: fixed-arity wrappers around variadic POSIX calls

    A shallow embedding of [Sources/libmcp/shims.c] and of its interface
    [Sources/libmcp/include/shims.h].

    The seven functions of [shims.c] do nothing but call one of the variadic
    C library functions [open], [fcntl] and [ioctl].  Those three belong to
    the platform, not to this library: a shim is therefore embedded as a
    small program that issues _native calls_, and its meaning is obtained by
    running that program against an arbitrary operating system, given as a
    transition function on an arbitrary world. *)

From Stdlib Require Import ZArith List String Bool Lia.
From stdpp Require Import base option strings gmap.
Import ListNotations.

Local Open Scope string_scope.
Local Open Scope Z_scope.

(** ** C data crossing the boundary *)

(** The C scalar types of the signatures.  Every one of them is carried by
    [Z]: the shims do no arithmetic on their arguments, so no wrap-around
    ever takes place, and quantifying over all of [Z] covers every value of
    the machine type. *)
Abbreviation int := Z (only parsing).      (* int *)
Abbreviation mode_t := Z (only parsing).   (* mode_t, an unsigned integer type *)
Abbreviation long := Z (only parsing).     (* long *)
Abbreviation ulong := Z (only parsing).    (* unsigned long *)
Abbreviation ptr := Z (only parsing).      (* an address: struct flock*, void* *)

(** A [const char *path] is carried by the string it points to, which is
    all the native [open] reads through it.  The pointers that the shims
    pass on without the callee's type being known to them ([struct flock*],
    [void*]) stay addresses. *)

(** The null pointer. *)
Definition NULL : ptr := 0.

(** An argument passed in the variadic tail [...] of a native call.  The
    constructor records the static type of the argument expression in
    [shims.c], which is what the callee's [va_arg] has to name.  The
    default argument promotions leave the value of each of them unchanged. *)
Inductive vararg : Type :=
| VaMode (mode : mode_t)     (* [mode_t mode]          in open_int_mode   *)
| VaFlock (flock : ptr)      (* [struct flock* flock]  in fcntl_int_flock *)
| VaLong (arg : long)        (* [long arg]             in fcntl_int_long  *)
| VaData (data : ptr).       (* [void* data]           in ioctl_long_void *)

(** A call of one of the three variadic library functions, with its fixed
    parameters and the list of arguments supplied after them. *)
Inductive native_call : Type :=
| SysOpen (path : string) (oflag : int) (ap : list vararg)
| SysFcntl (fildes : int) (cmd : int) (ap : list vararg)
| SysIoctl (fd : int) (request : ulong) (ap : list vararg).

(** The variadic tail of a native call. *)
Definition va_list_of (c : native_call) : list vararg :=
  match c with
  | SysOpen _ _ ap | SysFcntl _ _ ap | SysIoctl _ _ ap => ap
  end.

(** ** Programs over native calls *)

(** A C function body that can only compute and call [open], [fcntl] or
    [ioctl]: either it returns, or it performs a native call and continues
    with the [int] the call returned. *)
Inductive prog (A : Type) : Type :=
| Ret (a : A)
| Call (c : native_call) (k : int -> prog A).
Arguments Ret {A} a.
Arguments Call {A} c k.

Fixpoint bind {A B : Type} (p : prog A) (f : A -> prog B) : prog B :=
  match p with
  | Ret a => f a
  | Call c k => Call c (fun r => bind (k r) f)
  end.

Notation "x <- e ;; k" := (bind e (fun x => k))
  (at level 90, e at next level, right associativity).

(** The native functions, as seen from C. *)
Definition open (path : string) (oflag : int) (ap : list vararg) : prog int :=
  Call (SysOpen path oflag ap) Ret.
Definition fcntl (fildes cmd : int) (ap : list vararg) : prog int :=
  Call (SysFcntl fildes cmd ap) Ret.
Definition ioctl (fd : int) (request : ulong) (ap : list vararg) : prog int :=
  Call (SysIoctl fd request ap) Ret.

(** ** shims.c *)

(** [int open_int(const char *path, int oflag)] *)
Definition open_int (path : string) (oflag : int) : prog int :=
  r <- open path oflag [] ;; Ret r.

(** [int open_int_mode(const char *path, int oflag, mode_t mode)] *)
Definition open_int_mode (path : string) (oflag : int) (mode : mode_t)
  : prog int :=
  r <- open path oflag [VaMode mode] ;; Ret r.

(** [int fcntl_int(int fildes, int cmd)] *)
Definition fcntl_int (fildes cmd : int) : prog int :=
  r <- fcntl fildes cmd [] ;; Ret r.

(** [int fcntl_int_flock(int fildes, int cmd, struct flock* flock)] *)
Definition fcntl_int_flock (fildes cmd : int) (flock : ptr) : prog int :=
  r <- fcntl fildes cmd [VaFlock flock] ;; Ret r.

(** [int fcntl_int_long(int fildes, int cmd, long arg)] *)
Definition fcntl_int_long (fildes cmd : int) (arg : long) : prog int :=
  r <- fcntl fildes cmd [VaLong arg] ;; Ret r.

(** [int ioctl_long(int fd, unsigned long request)] *)
Definition ioctl_long (fd : int) (request : ulong) : prog int :=
  r <- ioctl fd request [] ;; Ret r.

(** [int ioctl_long_void(int fd, unsigned long request, void* data)] *)
Definition ioctl_long_void (fd : int) (request : ulong) (data : ptr)
  : prog int :=
  r <- ioctl fd request [VaData data] ;; Ret r.

(** ** shims.h *)

(** The parameter and result types occurring in the header. *)
Inductive ctype : Type :=
| Tint | Tconst_char_ptr | Tmode_t | Tflock_ptr | Tlong | Tulong | Tvoid_ptr.

(** One function declaration of the header. *)
Record decl : Type := Decl {
  d_ret : ctype;
  d_name : string;
  d_params : list ctype
}.

(** The declarations of [shims.h], in the order of the file. *)
Definition shims_h : list decl :=
  [ Decl Tint "open_int" [Tconst_char_ptr; Tint];
    Decl Tint "open_int_mode" [Tconst_char_ptr; Tint; Tmode_t];
    Decl Tint "fcntl_int" [Tint; Tint];
    Decl Tint "fcntl_int_flock" [Tint; Tint; Tflock_ptr];
    Decl Tint "fcntl_int_long" [Tint; Tint; Tlong];
    Decl Tint "ioctl_long" [Tint; Tulong];
    Decl Tint "ioctl_long_void" [Tint; Tulong; Tvoid_ptr] ].

(** An invocation of an exported function: which one, and with which
    argument tuple. *)
Inductive shim_call : Type :=
| Open_int (path : string) (oflag : int)
| Open_int_mode (path : string) (oflag : int) (mode : mode_t)
| Fcntl_int (fildes cmd : int)
| Fcntl_int_flock (fildes cmd : int) (flock : ptr)
| Fcntl_int_long (fildes cmd : int) (arg : long)
| Ioctl_long (fd : int) (request : ulong)
| Ioctl_long_void (fd : int) (request : ulong) (data : ptr).

(** The name of the function an invocation enters. *)
Definition callee (c : shim_call) : string :=
  match c with
  | Open_int _ _ => "open_int"
  | Open_int_mode _ _ _ => "open_int_mode"
  | Fcntl_int _ _ => "fcntl_int"
  | Fcntl_int_flock _ _ _ => "fcntl_int_flock"
  | Fcntl_int_long _ _ _ => "fcntl_int_long"
  | Ioctl_long _ _ => "ioctl_long"
  | Ioctl_long_void _ _ _ => "ioctl_long_void"
  end.

(** The body of [shims.c] that an invocation executes. *)
Definition exec (c : shim_call) : prog int :=
  match c with
  | Open_int path oflag => open_int path oflag
  | Open_int_mode path oflag mode => open_int_mode path oflag mode
  | Fcntl_int fildes cmd => fcntl_int fildes cmd
  | Fcntl_int_flock fildes cmd flock => fcntl_int_flock fildes cmd flock
  | Fcntl_int_long fildes cmd arg => fcntl_int_long fildes cmd arg
  | Ioctl_long fd request => ioctl_long fd request
  | Ioctl_long_void fd request data => ioctl_long_void fd request data
  end.

(** ** Running a program against an operating system *)

Section Semantics.
Context {world : Type}.

(** The platform: what a native call returns and how it changes the world
    (descriptor table, file system, the thread's [errno], ...). *)
Variable os : native_call -> world -> int * world.

(** Result and final world of a program started in [w]. *)
Fixpoint run {A : Type} (p : prog A) (w : world) : A * world :=
  match p with
  | Ret a => (a, w)
  | Call c k => run (k (os c w).1) (os c w).2
  end.

(** The native calls a program started in [w] performs, in order. *)
Fixpoint calls {A : Type} (p : prog A) (w : world) : list native_call :=
  match p with
  | Ret _ => []
  | Call c k => c :: calls (k (os c w).1) (os c w).2
  end.

End Semantics.

(** ** What the platform promises about [open] *)

(** Values of [<fcntl.h>] and [<errno.h>] that Linux and Darwin share. *)
Definition O_RDONLY : int := 0.
Definition ENOENT : int := 2.

(** [va_arg(ap, mode_t)] in the callee: the permission mode is the first
    argument of the variadic tail, when the caller supplied one. *)
Definition va_arg_mode (ap : list vararg) : option mode_t :=
  match ap with
  | VaMode mode :: _ => Some mode
  | _ => None
  end.

Section OpenContract.
Context {world : Type}.

(** Which flag words make [open] fetch a mode ([O_CREAT], and [O_TMPFILE]
    where it exists); the bit values are the platform's. *)
Variable needs_mode : int -> bool.

(** The kernel entry point behind [open], which always takes a mode. *)
Variable sys_open : string -> int -> mode_t -> world -> int * world.

(** The documented behaviour of the variadic [open]: without a mode-needing
    flag the tail is not read and the kernel gets mode 0; with one, the
    kernel gets the mode found in the tail.  Nothing is promised when such
    a flag is set and the tail holds no mode. *)
Record open_contract (os : native_call -> world -> int * world) : Prop := {
  open_ignores_tail : forall path oflag ap w,
    needs_mode oflag = false ->
    os (SysOpen path oflag ap) w = sys_open path oflag 0 w;
  open_reads_mode : forall path oflag ap mode w,
    needs_mode oflag = true ->
    va_arg_mode ap = Some mode ->
    os (SysOpen path oflag ap) w = sys_open path oflag mode w
}.

(** The platform [os], except that an [open] which reads a mode the caller
    did not supply finds [junk] there. *)
Definition with_junk (os : native_call -> world -> int * world)
    (junk : mode_t) (c : native_call) (w : world) : int * world :=
  match c with
  | SysOpen path oflag ap =>
      if needs_mode oflag then
        match va_arg_mode ap with
        | Some _ => os c w
        | None => sys_open path oflag junk w
        end
      else os c w
  | _ => os c w
  end.

End OpenContract.

(** ** The specification's reading of the operations *)

Module Spec.

(** The POSIX call an invocation is to be forwarded to. *)
Definition forwards_to (c : shim_call) : native_call :=
  match c with
  | Open_int path flags => SysOpen path flags []
  | Open_int_mode path flags mode => SysOpen path flags [VaMode mode]
  | Fcntl_int descriptor command => SysFcntl descriptor command []
  | Fcntl_int_flock descriptor command lock =>
      SysFcntl descriptor command [VaFlock lock]
  | Fcntl_int_long descriptor command arg =>
      SysFcntl descriptor command [VaLong arg]
  | Ioctl_long descriptor request => SysIoctl descriptor request []
  | Ioctl_long_void descriptor request data =>
      SysIoctl descriptor request [VaData data]
  end.

(** "directly invoking the two-argument form of the underlying open" *)
Definition open_two_args (path : string) (flags : int) : native_call :=
  SysOpen path flags [].

(** "the three-argument form of the underlying open operation" *)
Definition open_three_args (path : string) (flags : int) (mode : mode_t)
  : native_call :=
  SysOpen path flags [VaMode mode].

(** "passing the same lock record to the underlying fcntl operation" *)
Definition fcntl_with_lock (descriptor command : int) (lock : ptr)
  : native_call :=
  SysFcntl descriptor command [VaFlock lock].

(** "the underlying fcntl operation ... for the same long-integer argument" *)
Definition fcntl_with_long (descriptor command : int) (arg : long)
  : native_call :=
  SysFcntl descriptor command [VaLong arg].

(** "the underlying ioctl operation invoked with no extra argument" *)
Definition ioctl_no_arg (descriptor : int) (request : ulong) : native_call :=
  SysIoctl descriptor request [].

(** "the underlying ioctl operation invoked with that buffer" *)
Definition ioctl_with_data (descriptor : int) (request : ulong) (data : ptr)
  : native_call :=
  SysIoctl descriptor request [VaData data].

End Spec.

(** The names the header exports. *)
Definition exposed_operations : list string := map d_name shims_h.

(** A direct, unconditional forward: the body is one native call, the one
    the specification names, whose answer is returned as it is. *)
Definition direct_forward (c : shim_call) : Prop :=
  exec c = Call (Spec.forwards_to c) Ret.

(** ** A small POSIX-like platform *)

(** A concrete operating system with a flat file system and a descriptor
    table.  It is not part of libmcp: it shows that the assumptions made on
    the platform below can be met, and lets the shims be run. *)
Module Model.

Definition O_CREAT : int := 64.        (* 0100, Linux *)
Definition EBADF : int := 9.
Definition EFAULT : int := 14.
Definition EINVAL : int := 22.
Definition ENOTTY : int := 25.
Definition F_GETFD : int := 1.
Definition F_SETFD : int := 2.
Definition F_SETLK : int := 6.
Definition FIONREAD : ulong := 21531.   (* 0x541B, Linux *)

Record world : Type := World {
  files : gmap string Z;     (* existing entries and their permission bits *)
  fdtab : list string;       (* descriptor n is the n-th opened path *)
  fdflags : gmap Z Z;        (* descriptor flags set by F_SETFD *)
  errno : int                (* the last-error state *)
}.

Definition entry_exists (w : world) (path : string) : bool :=
  match files w !! path with
  | Some _ => true
  | None => false
  end.

Definition is_open (w : world) (fd : int) : bool :=
  (0 <=? fd) && (fd <? Z.of_nat (length (fdtab w))).

(** A failing call: -1, and the cause in [errno]. *)
Definition fail (e : int) (w : world) : int * world :=
  (-1, World (files w) (fdtab w) (fdflags w) e).

(** A new descriptor for [path]. *)
Definition install (path : string) (w : world) : int * world :=
  (Z.of_nat (length (fdtab w)),
   World (files w) (fdtab w ++ [path])%list (fdflags w) (errno w)).

Definition needs_mode (oflag : int) : bool :=
  negb (Z.land oflag O_CREAT =? 0).

Definition sys_open (path : string) (oflag : int) (mode : mode_t) (w : world)
  : int * world :=
  if entry_exists w path then install path w
  else if needs_mode oflag then
    install path (World (<[path := mode]> (files w)) (fdtab w) (fdflags w)
                        (errno w))
  else fail ENOENT w.

Definition sys_fcntl (fildes cmd : int) (ap : list vararg) (w : world)
  : int * world :=
  if negb (is_open w fildes) then fail EBADF w
  else if cmd =? F_GETFD then (default 0 (fdflags w !! fildes), w)
  else if cmd =? F_SETFD then
    match ap with
    | VaLong arg :: _ =>
        (0, World (files w) (fdtab w) (<[fildes := arg]> (fdflags w))
                  (errno w))
    | _ => fail EINVAL w
    end
  else if cmd =? F_SETLK then
    match ap with
    | VaFlock flock :: _ => if flock =? NULL then fail EFAULT w else (0, w)
    | _ => fail EFAULT w
    end
  else fail EINVAL w.

Definition sys_ioctl (fd : int) (request : ulong) (ap : list vararg)
    (w : world) : int * world :=
  if negb (is_open w fd) then fail EBADF w
  else if request =? FIONREAD then
    match ap with
    | VaData data :: _ => if data =? NULL then fail EFAULT w else (0, w)
    | _ => fail EFAULT w
    end
  else fail ENOTTY w.

(** The C library on top of that kernel.  [junk] is what [open] finds in
    place of a mode the caller did not pass. *)
Definition os (junk : mode_t) (c : native_call) (w : world) : int * world :=
  match c with
  | SysOpen path oflag ap =>
      sys_open path oflag
        (if needs_mode oflag then default junk (va_arg_mode ap) else 0) w
  | SysFcntl fildes cmd ap => sys_fcntl fildes cmd ap w
  | SysIoctl fd request ap => sys_ioctl fd request ap w
  end.

(** One file, no descriptor open, no error recorded. *)
Definition boot : world :=
  World {[ "/etc/hosts" := 420 ]} [] ∅ 0.

End Model.


(** ** Typed argument tuples *)

(** A C value together with the type it has in the signatures. *)
Inductive cvalue : Type :=
| Vpath (path : string)      (* const char *  *)
| Vint (i : int)             (* int           *)
| Vmode (mode : mode_t)      (* mode_t        *)
| Vflock (flock : ptr)       (* struct flock* *)
| Vlong (arg : long)         (* long          *)
| Vulong (request : ulong)   (* unsigned long *)
| Vdata (data : ptr).        (* void*         *)

Definition type_of (v : cvalue) : ctype :=
  match v with
  | Vpath _ => Tconst_char_ptr
  | Vint _ => Tint
  | Vmode _ => Tmode_t
  | Vflock _ => Tflock_ptr
  | Vlong _ => Tlong
  | Vulong _ => Tulong
  | Vdata _ => Tvoid_ptr
  end.

(** The arguments an invocation binds, in the order of the parameter list
    of the function's definition in [shims.c]. *)
Definition arguments (c : shim_call) : list cvalue :=
  match c with
  | Open_int path oflag => [Vpath path; Vint oflag]
  | Open_int_mode path oflag mode => [Vpath path; Vint oflag; Vmode mode]
  | Fcntl_int fildes cmd => [Vint fildes; Vint cmd]
  | Fcntl_int_flock fildes cmd flock => [Vint fildes; Vint cmd; Vflock flock]
  | Fcntl_int_long fildes cmd arg => [Vint fildes; Vint cmd; Vlong arg]
  | Ioctl_long fd request => [Vint fd; Vulong request]
  | Ioctl_long_void fd request data => [Vint fd; Vulong request; Vdata data]
  end.

Definition vararg_value (a : vararg) : cvalue :=
  match a with
  | VaMode mode => Vmode mode
  | VaFlock flock => Vflock flock
  | VaLong arg => Vlong arg
  | VaData data => Vdata data
  end.

(** The arguments a native call receives: the two fixed ones, then the
    variadic tail. *)
Definition native_arguments (c : native_call) : list cvalue :=
  match c with
  | SysOpen path oflag ap => Vpath path :: Vint oflag :: map vararg_value ap
  | SysFcntl fildes cmd ap => Vint fildes :: Vint cmd :: map vararg_value ap
  | SysIoctl fd request ap => Vint fd :: Vulong request :: map vararg_value ap
  end.

(** The declaration the header gives for a name. *)
Definition prototype (name : string) : option decl :=
  List.find (fun d => String.eqb (d_name d) name) shims_h.

(** ** Callers of the library *)

(** Any code that uses the library only through its exported functions:
    it returns, or it invokes a shim and goes on with the [int] it got,
    which may decide every later invocation. *)
Inductive client (A : Type) : Type :=
| Done (a : A)
| Invoke (c : shim_call) (k : int -> client A).
Arguments Done {A} a.
Arguments Invoke {A} c k.

(** The caller linked against [shims.c]: each invocation runs the body of
    the function it names. *)
Fixpoint link {A : Type} (cl : client A) : prog A :=
  match cl with
  | Done a => Ret a
  | Invoke c k => r <- exec c ;; link (k r)
  end.

(** The invocations a caller makes, in order, when linked against
    [shims.c] and run on a platform. *)
Fixpoint invocations {world : Type} (os : native_call -> world -> int * world)
    {A : Type} (cl : client A) (w : world) : list shim_call :=
  match cl with
  | Done _ => []
  | Invoke c k =>
      c :: invocations os (k (run os (exec c) w).1) (run os (exec c) w).2
  end.

(** The same caller with every invocation replaced by the variadic call
    the specification names for it. *)
Fixpoint direct {A : Type} (cl : client A) : prog A :=
  match cl with
  | Done a => Ret a
  | Invoke c k => Call (Spec.forwards_to c) (fun r => direct (k r))
  end.

(** * Properties *)

(** ** Running programs *)

Section RunFacts.
Context {world : Type}.
Variable os : native_call -> world -> int * world.

Lemma run_bind {A B : Type} (p : prog A) (f : A -> prog B) (w : world) :
  run os (bind p f) w = run os (f (run os p w).1) (run os p w).2.
Proof.
  revert w. induction p as [a | c k IH]; intros w; simpl.
  - reflexivity.
  - apply IH.
Qed.

Lemma calls_bind {A B : Type} (p : prog A) (f : A -> prog B) (w : world) :
  calls os (bind p f) w
  = (calls os p w ++ calls os (f (run os p w).1) (run os p w).2)%list.
Proof.
  revert w. induction p as [a | c k IH]; intros w; simpl.
  - reflexivity.
  - f_equal. apply IH.
Qed.

Lemma run_call (c : native_call) (w : world) : run os (Call c Ret) w = os c w.
Proof. simpl. destruct (os c w); reflexivity. Qed.

Lemma calls_call (c : native_call) (w : world) :
  calls os (Call c Ret) w = [c].
Proof. reflexivity. Qed.

End RunFacts.

(** Every body of [shims.c] is a single native call followed by the return
    of its answer. *)
Lemma exec_direct (c : shim_call) : direct_forward c.
Proof. destruct c; reflexivity. Qed.

Lemma run_exec {world : Type} (os : native_call -> world -> int * world)
    (c : shim_call) (w : world) :
  run os (exec c) w = os (Spec.forwards_to c) w.
Proof. rewrite (exec_direct c). apply run_call. Qed.

(** Replaces the run of the body entered by [c] by the native call. *)
Ltac forward_run os c w :=
  let H := fresh "Hrun" in
  pose proof (run_exec os c w) as H;
  cbn [exec Spec.forwards_to] in H;
  rewrite !H; clear H.

Lemma calls_exec {world : Type} (os : native_call -> world -> int * world)
    (c : shim_call) (w : world) :
  calls os (exec c) w = [Spec.forwards_to c].
Proof. rewrite (exec_direct c). reflexivity. Qed.

(** ** The platform model meets the assumptions *)

Lemma model_open_contract (junk : mode_t) :
  open_contract Model.needs_mode Model.sys_open (Model.os junk).
Proof.
  split.
  - intros path oflag ap w Hno. simpl. rewrite Hno. reflexivity.
  - intros path oflag ap mode w Hyes Hmode. simpl.
    rewrite Hyes, Hmode. reflexivity.
Qed.

Lemma model_open_missing (junk : mode_t) (path : string) (w : Model.world) :
  Model.entry_exists w path = false ->
  (Model.os junk (SysOpen path O_RDONLY []) w).1 = -1
  /\ Model.errno (Model.os junk (SysOpen path O_RDONLY []) w).2 = ENOENT.
Proof.
  intros Hmissing. simpl. unfold Model.sys_open. rewrite Hmissing.
  split; reflexivity.
Qed.

Lemma with_junk_contract {world : Type} (needs_mode : int -> bool)
    (sys_open : string -> int -> mode_t -> world -> int * world)
    (os : native_call -> world -> int * world) (junk : mode_t) :
  open_contract needs_mode sys_open os ->
  open_contract needs_mode sys_open (with_junk needs_mode sys_open os junk).
Proof.
  intros [Hignore Hread]. split.
  - intros path oflag ap w Hno. simpl. rewrite Hno. now apply Hignore.
  - intros path oflag ap mode w Hyes Hmode. simpl.
    rewrite Hyes, Hmode. now apply Hread.
Qed.

(** On the model, a creating [open_int] leaves behind a file whose
    permission bits are whatever happened to be in the place of the mode. *)
Lemma model_open_int_creat_junk :
  (run (Model.os 0) (open_int "/tmp/new" Model.O_CREAT) Model.boot).2
  <> (run (Model.os 511) (open_int "/tmp/new" Model.O_CREAT) Model.boot).2.
Proof.
  intros Heq.
  apply (f_equal (fun w => Model.files w !! "/tmp/new")) in Heq.
  vm_compute in Heq. discriminate Heq.
Qed.

(** On the model, the null lock pointer is rejected by the kernel: the
    shim hands it over and reports the kernel's verdict. *)
Lemma model_flock_null_rejected :
  let w := (run (Model.os 0) (open_int "/etc/hosts" O_RDONLY) Model.boot).2 in
  (run (Model.os 0) (fcntl_int_flock 0 Model.F_SETLK NULL) w).1 = -1
  /\ Model.errno (run (Model.os 0) (fcntl_int_flock 0 Model.F_SETLK NULL) w).2
     = Model.EFAULT
  /\ (run (Model.os 0) (fcntl_int_flock 0 Model.F_SETLK 4096) w).1 = 0.
Proof. vm_compute. repeat split. Qed.

(** ** The claims *)

(** C1: whichever of the seven shims is entered and whatever its argument
    tuple, running it yields the return value of the native call it forwards
    to and the world that call left behind, so the last-error state is the
    one the native call set; the shim fails (returns -1) exactly when the
    native call does, and the native call is the only thing it does. *)
Theorem shim_passthrough {world : Type} (errno : world -> int)
    (os : native_call -> world -> int * world) (c : shim_call) (w : world) :
  run os (exec c) w = os (Spec.forwards_to c) w
  /\ errno (run os (exec c) w).2 = errno (os (Spec.forwards_to c) w).2
  /\ ((run os (exec c) w).1 =? -1) = ((os (Spec.forwards_to c) w).1 =? -1)
  /\ calls os (exec c) w = [Spec.forwards_to c].
Proof.
  rewrite run_exec, calls_exec. repeat split.
Qed.

(** C2, as the specification words it, fails: the header does not export
    six operations. *)
Lemma six_operations_refuted :
  ~ (length exposed_operations = 6%nat /\ forall c, direct_forward c).
Proof. intros [Hsix _]. vm_compute in Hsix. discriminate Hsix. Qed.

(** C2 (amended): the shim layer exposes exactly seven operations, with
    pairwise distinct names, which are the seven functions of [shims.c], and
    each is a direct, unconditional forward to one POSIX call. *)
Theorem seven_operations :
  length exposed_operations = 7%nat
  /\ NoDup exposed_operations
  /\ (forall c, In (callee c) exposed_operations)
  /\ Forall (fun name => exists c, callee c = name) exposed_operations
  /\ (forall c, direct_forward c).
Proof.
  split; [reflexivity|].
  split.
  { apply (bool_decide_unpack _). vm_compute. exact I. }
  split.
  { intros c. destruct c; vm_compute; tauto. }
  split.
  { unfold exposed_operations; simpl.
    repeat first [apply List.Forall_cons | apply List.Forall_nil].
    - exists (Open_int "" 0); reflexivity.
    - exists (Open_int_mode "" 0 0); reflexivity.
    - exists (Fcntl_int 0 0); reflexivity.
    - exists (Fcntl_int_flock 0 0 NULL); reflexivity.
    - exists (Fcntl_int_long 0 0 0); reflexivity.
    - exists (Ioctl_long 0 0); reflexivity.
    - exists (Ioctl_long_void 0 0 NULL); reflexivity. }
  exact exec_direct.
Qed.

(** C3: for every path and every flags value, [open_int path flags] gives
    the result (return value and world) of the two-argument call of the
    native open with that path and those flags. *)
Theorem open_int_two_args {world : Type}
    (os : native_call -> world -> int * world)
    (path : string) (flags : int) (w : world) :
  run os (open_int path flags) w = os (Spec.open_two_args path flags) w.
Proof. exact (run_exec os (Open_int path flags) w). Qed.

(** C4: for every path, flags and mode, [open_int_mode path flags mode]
    gives the result of the three-argument call of the native open with
    those arguments. *)
Theorem open_int_mode_three_args {world : Type}
    (os : native_call -> world -> int * world)
    (path : string) (flags : int) (mode : mode_t) (w : world) :
  run os (open_int_mode path flags mode) w
  = os (Spec.open_three_args path flags mode) w.
Proof. exact (run_exec os (Open_int_mode path flags mode) w). Qed.

(** C5: for every descriptor, command and lock-record pointer,
    [fcntl_int_flock] gives the result of the native fcntl called with the
    same descriptor, the same command and that very pointer; it is the only
    native call made, so the record is neither modified nor copied. *)
Theorem fcntl_int_flock_same_lock {world : Type}
    (os : native_call -> world -> int * world)
    (descriptor command : int) (lock : ptr) (w : world) :
  run os (fcntl_int_flock descriptor command lock) w
  = os (Spec.fcntl_with_lock descriptor command lock) w
  /\ calls os (fcntl_int_flock descriptor command lock) w
     = [Spec.fcntl_with_lock descriptor command lock].
Proof.
  split.
  - exact (run_exec os (Fcntl_int_flock descriptor command lock) w).
  - reflexivity.
Qed.

(** C6: for every descriptor, command and long argument, [fcntl_int_long]
    gives the result of the native fcntl called with that long argument. *)
Theorem fcntl_int_long_same_arg {world : Type}
    (os : native_call -> world -> int * world)
    (descriptor command : int) (arg : long) (w : world) :
  run os (fcntl_int_long descriptor command arg) w
  = os (Spec.fcntl_with_long descriptor command arg) w.
Proof. exact (run_exec os (Fcntl_int_long descriptor command arg) w). Qed.

(** C7: for every descriptor and request code, [ioctl_long] gives the
    result of the native ioctl called with those two arguments and an empty
    variadic tail. *)
Theorem ioctl_long_no_third_arg {world : Type}
    (os : native_call -> world -> int * world)
    (descriptor : int) (request : ulong) (w : world) :
  run os (ioctl_long descriptor request) w
  = os (Spec.ioctl_no_arg descriptor request) w
  /\ va_list_of (Spec.ioctl_no_arg descriptor request) = [].
Proof.
  split.
  - exact (run_exec os (Ioctl_long descriptor request) w).
  - reflexivity.
Qed.

(** C8: on a platform whose native open, called directly with a path naming
    no existing entry and the read-only flags, returns -1 and sets the
    last-error state to ENOENT, [open_int] called with such a path and the
    read-only flags returns -1 and leaves ENOENT in the last-error state,
    with the very result of the direct native call. *)
Theorem open_int_missing_entry {world : Type} (errno : world -> int)
    (entry_exists : world -> string -> bool)
    (os : native_call -> world -> int * world)
    (Hnative : forall path w, entry_exists w path = false ->
       (os (SysOpen path O_RDONLY []) w).1 = -1
       /\ errno (os (SysOpen path O_RDONLY []) w).2 = ENOENT)
    (path : string) (w : world) (Hmissing : entry_exists w path = false) :
  (run os (open_int path O_RDONLY) w).1 = -1
  /\ errno (run os (open_int path O_RDONLY) w).2 = ENOENT
  /\ run os (open_int path O_RDONLY) w
     = os (Spec.open_two_args path O_RDONLY) w.
Proof.
  forward_run os (Open_int path O_RDONLY) w. unfold Spec.open_two_args.
  destruct (Hnative path w Hmissing) as [Hret Herr].
  repeat split; assumption.
Qed.

Lemma open_int_missing_entry_witness :
  Model.entry_exists Model.boot "/nonexistent" = false
  /\ (run (Model.os 0) (open_int "/nonexistent" O_RDONLY) Model.boot).1 = -1
  /\ Model.errno
       (run (Model.os 0) (open_int "/nonexistent" O_RDONLY) Model.boot).2
     = ENOENT
  /\ run (Model.os 0) (open_int "/nonexistent" O_RDONLY) Model.boot
     = Model.os 0 (Spec.open_two_args "/nonexistent" O_RDONLY) Model.boot.
Proof.
  split; [reflexivity|].
  apply (open_int_missing_entry Model.errno Model.entry_exists (Model.os 0)
           (model_open_missing 0) "/nonexistent" Model.boot).
  reflexivity.
Defined.

(** C9: [open_int] calls the native open with an empty variadic tail, so no
    permission mode is supplied.  On a platform honouring the contract of
    open: when the flags need no mode, the result is that of the kernel
    entry with mode 0, whatever a caller could have put in the tail; when
    the flags need a mode, the contract leaves the mode open, and for every
    value [junk] the platform that finds [junk] in the place of the missing
    mode still honours the contract and makes [open_int] act as an open
    with mode [junk]. *)
Theorem open_int_supplies_no_mode {world : Type} (needs_mode : int -> bool)
    (sys_open : string -> int -> mode_t -> world -> int * world)
    (os : native_call -> world -> int * world)
    (Hos : open_contract needs_mode sys_open os)
    (path : string) (oflag : int) (w : world) :
  calls os (open_int path oflag) w = [SysOpen path oflag []]
  /\ va_arg_mode (va_list_of (Spec.forwards_to (Open_int path oflag))) = None
  /\ (needs_mode oflag = false ->
      run os (open_int path oflag) w = sys_open path oflag 0 w
      /\ forall mode,
           run os (open_int_mode path oflag mode) w
           = run os (open_int path oflag) w)
  /\ (needs_mode oflag = true ->
      forall junk,
        open_contract needs_mode sys_open
          (with_junk needs_mode sys_open os junk)
        /\ run (with_junk needs_mode sys_open os junk)
               (open_int path oflag) w
           = sys_open path oflag junk w).
Proof.
  split; [reflexivity|]. split; [reflexivity|]. split.
  - intros Hno. split.
    + forward_run os (Open_int path oflag) w.
      now apply (open_ignores_tail _ _ _ Hos).
    + intros mode.
      forward_run os (Open_int_mode path oflag mode) w.
      forward_run os (Open_int path oflag) w.
      rewrite !(open_ignores_tail _ _ _ Hos) by assumption. reflexivity.
  - intros Hyes junk. split.
    + now apply with_junk_contract.
    + forward_run (with_junk needs_mode sys_open os junk)
        (Open_int path oflag) w.
      simpl. rewrite Hyes. reflexivity.
Qed.

Lemma open_int_supplies_no_mode_witness :
  open_contract Model.needs_mode Model.sys_open (Model.os 0)
  /\ Model.needs_mode Model.O_CREAT = true
  /\ run (with_junk Model.needs_mode Model.sys_open (Model.os 0) 511)
         (open_int "/tmp/new" Model.O_CREAT) Model.boot
     = Model.sys_open "/tmp/new" Model.O_CREAT 511 Model.boot.
Proof.
  split; [exact (model_open_contract 0)|].
  split; [reflexivity|].
  destruct (open_int_supplies_no_mode Model.needs_mode Model.sys_open
              (Model.os 0) (model_open_contract 0)
              "/tmp/new" Model.O_CREAT Model.boot)
    as (_ & _ & _ & Hjunk).
  exact (proj2 (Hjunk eq_refl 511)).
Defined.

(** C10: [fcntl_int_flock] and [ioctl_long_void] do not look at their
    pointer argument: for every pointer, the null pointer included, the body
    is the native call carrying that pointer and nothing else, so the return
    value and the last-error state of the shim are those of the operating
    system. *)
Theorem pointer_forwarded_unchecked {world : Type}
    (os : native_call -> world -> int * world)
    (fildes cmd : int) (request : ulong) (p : ptr) (w : world) :
  fcntl_int_flock fildes cmd p = fcntl fildes cmd [VaFlock p]
  /\ ioctl_long_void fildes request p = ioctl fildes request [VaData p]
  /\ fcntl_int_flock fildes cmd NULL = fcntl fildes cmd [VaFlock NULL]
  /\ ioctl_long_void fildes request NULL = ioctl fildes request [VaData NULL]
  /\ run os (fcntl_int_flock fildes cmd p) w
     = os (SysFcntl fildes cmd [VaFlock p]) w
  /\ run os (ioctl_long_void fildes request p) w
     = os (SysIoctl fildes request [VaData p]) w
  /\ run os (fcntl_int_flock fildes cmd NULL) w
     = os (SysFcntl fildes cmd [VaFlock NULL]) w
  /\ run os (ioctl_long_void fildes request NULL) w
     = os (SysIoctl fildes request [VaData NULL]) w.
Proof.
  repeat split; try reflexivity.
  - exact (run_exec os (Fcntl_int_flock fildes cmd p) w).
  - exact (run_exec os (Ioctl_long_void fildes request p) w).
  - exact (run_exec os (Fcntl_int_flock fildes cmd NULL) w).
  - exact (run_exec os (Ioctl_long_void fildes request NULL) w).
Qed.

(** ** Further properties of the shims *)

(** On the model, reading the descriptor flags does not look at the
    variadic tail. *)
Lemma model_getfd_ignores_tail (junk : mode_t) (fildes : int)
    (ap : list vararg) (w : Model.world) :
  Model.os junk (SysFcntl fildes Model.F_GETFD ap) w
  = Model.os junk (SysFcntl fildes Model.F_GETFD []) w.
Proof. simpl. unfold Model.sys_fcntl. reflexivity. Qed.

(** On the model, a request other than FIONREAD does not look at the
    variadic tail. *)
Lemma model_ioctl_ignores_tail (junk : mode_t) (fd : int)
    (ap : list vararg) (w : Model.world) :
  Model.os junk (SysIoctl fd 0 ap) w = Model.os junk (SysIoctl fd 0 []) w.
Proof. simpl. unfold Model.sys_ioctl. reflexivity. Qed.

(** X1: [fcntl_int] calls the native fcntl with the descriptor and the
    command and nothing after them.  For a descriptor and a command on
    which the platform's fcntl does not read its variadic tail, the three
    fcntl shims are interchangeable: [fcntl_int_long] with any argument and
    [fcntl_int_flock] with any pointer give the result of [fcntl_int]. *)
Theorem fcntl_shims_agree_without_argument {world : Type}
    (os : native_call -> world -> int * world) (fildes cmd : int)
    (Htail : forall ap w,
       os (SysFcntl fildes cmd ap) w = os (SysFcntl fildes cmd []) w)
    (arg : long) (flock : ptr) (w : world) :
  run os (fcntl_int fildes cmd) w = os (SysFcntl fildes cmd []) w
  /\ calls os (fcntl_int fildes cmd) w = [SysFcntl fildes cmd []]
  /\ run os (fcntl_int_long fildes cmd arg) w
     = run os (fcntl_int fildes cmd) w
  /\ run os (fcntl_int_flock fildes cmd flock) w
     = run os (fcntl_int fildes cmd) w.
Proof.
  forward_run os (Fcntl_int fildes cmd) w.
  forward_run os (Fcntl_int_long fildes cmd arg) w.
  forward_run os (Fcntl_int_flock fildes cmd flock) w.
  repeat split; try reflexivity; apply Htail.
Qed.

Lemma fcntl_shims_agree_without_argument_witness :
  let w := (run (Model.os 0) (open_int "/etc/hosts" O_RDONLY) Model.boot).2 in
  (run (Model.os 0) (fcntl_int 0 Model.F_GETFD) w).1 = 0
  /\ run (Model.os 0) (fcntl_int_long 0 Model.F_GETFD 7) w
     = run (Model.os 0) (fcntl_int 0 Model.F_GETFD) w
  /\ run (Model.os 0) (fcntl_int_flock 0 Model.F_GETFD NULL) w
     = run (Model.os 0) (fcntl_int 0 Model.F_GETFD) w.
Proof.
  intros w. split; [reflexivity|].
  destruct (fcntl_shims_agree_without_argument (Model.os 0) 0 Model.F_GETFD
              (model_getfd_ignores_tail 0 0) 7 NULL w)
    as (_ & _ & Hlong & Hflock).
  split; assumption.
Defined.

(** X2: [ioctl_long_void] calls the native ioctl with the descriptor, the
    request and the data pointer as the only variadic argument.  For a
    descriptor and a request on which the platform's ioctl does not read
    its variadic tail, it gives the result of [ioctl_long], whatever the
    pointer. *)
Theorem ioctl_shims_agree_without_payload {world : Type}
    (os : native_call -> world -> int * world) (fd : int) (request : ulong)
    (Htail : forall ap w,
       os (SysIoctl fd request ap) w = os (SysIoctl fd request []) w)
    (data : ptr) (w : world) :
  run os (ioctl_long_void fd request data) w
  = os (Spec.ioctl_with_data fd request data) w
  /\ calls os (ioctl_long_void fd request data) w
     = [Spec.ioctl_with_data fd request data]
  /\ run os (ioctl_long_void fd request data) w
     = run os (ioctl_long fd request) w.
Proof.
  forward_run os (Ioctl_long_void fd request data) w.
  forward_run os (Ioctl_long fd request) w.
  repeat split; try reflexivity. apply Htail.
Qed.

Lemma ioctl_shims_agree_without_payload_witness :
  (run (Model.os 0) (ioctl_long 5 0) Model.boot).1 = -1
  /\ Model.errno (run (Model.os 0) (ioctl_long 5 0) Model.boot).2
     = Model.EBADF
  /\ run (Model.os 0) (ioctl_long_void 5 0 4096) Model.boot
     = run (Model.os 0) (ioctl_long 5 0) Model.boot.
Proof.
  split; [reflexivity|]. split; [reflexivity|].
  exact (proj2 (proj2 (ioctl_shims_agree_without_payload (Model.os 0) 5 0
                         (model_ioctl_ignores_tail 0 5) 4096 Model.boot))).
Defined.

(** X3: the library is transparent to its callers.  Whatever a caller does
    with the shims, in whatever order and however later invocations depend
    on earlier results, linking it against [shims.c] gives the result, the
    final world and the sequence of native calls of the same caller written
    against the variadic functions; there is one native call per
    invocation, failed calls included. *)
Theorem link_transparent {world : Type}
    (os : native_call -> world -> int * world) {A : Type}
    (cl : client A) (w : world) :
  run os (link cl) w = run os (direct cl) w
  /\ calls os (link cl) w = calls os (direct cl) w
  /\ calls os (link cl) w = map Spec.forwards_to (invocations os cl w).
Proof.
  revert w. induction cl as [a | c k IH]; intros w.
  - repeat split.
  - cbn [link direct invocations].
    rewrite run_bind, calls_bind, run_exec, calls_exec.
    destruct (IH (os (Spec.forwards_to c) w).1 (os (Spec.forwards_to c) w).2)
      as (Hrun & Hcalls & Hinv).
    cbn [run calls map app]. rewrite Hrun, <- Hinv, Hcalls.
    repeat split.
Qed.



(** X5: the header and the definitions agree.  For every invocation, the
    header declares the function entered, with result type int and with
    exactly the parameter types, in order, of the arguments the definition
    in [shims.c] binds. *)
Theorem header_matches_definitions (c : shim_call) :
  prototype (callee c) = Some (Decl Tint (callee c) (map type_of (arguments c))).
Proof. destruct c; reflexivity. Qed.

(** X6: a shim hands its arguments to the native function in the order it
    received them, the first two as the fixed parameters and the third, if
    any, as the only variadic argument; none is dropped, added, reordered
    or changed. *)
Theorem arguments_forwarded_in_order {world : Type}
    (os : native_call -> world -> int * world) (c : shim_call) (w : world) :
  map native_arguments (calls os (exec c) w) = [arguments c].
Proof. destruct c; reflexivity. Qed.
